(** * Generated plugin registrant (Linux) and platform-view header (iOS)

    Two files are covered:

    - [dev/integration_tests/flutter_gallery/linux/flutter/generated_plugin_registrant.cc],
      whose single function [fl_register_plugins] is embedded as an
      interaction tree over the calls it makes;
    - [dev/integration_tests/android_views/ios/Runner/SimplePlatformView.h],
      whose declarations are embedded as data. *)

From Stdlib Require Import String List ZArith Bool Arith Lia.
From ITree Require Import ITree ITreeFacts Events.State Events.StateFacts.
Import ITreeNotations ListNotations.
Local Open Scope string_scope.
Local Open Scope list_scope.
Local Open Scope itree_scope.

(* ===================================================================== *)
(** * generated_plugin_registrant.cc                                      *)
(* ===================================================================== *)

Module Registrant.

(** The two GObject types the function names. *)
Inductive gtype : Type :=
| FlPluginRegistry
| FlPluginRegistrar.

(** A C pointer to an object of type [T]: an address, [0] for [NULL]. *)
Record pointer (T : gtype) : Type := Ptr { addr : Z }.
Arguments Ptr {T} addr.
Arguments addr {T} p.

Definition NULL {T : gtype} : pointer T := Ptr 0.

(** The callees of the translation unit.  None of them is defined in it:
    the lookup comes from the embedder's library, the registration routine
    from [<url_launcher_linux/url_launcher_plugin.h>], and the cleanup is
    the function that [g_autoptr(FlPluginRegistrar)] attaches to the
    variable it declares, called on the variable when it goes out of scope
    (the event carries the pointer the variable then holds). *)
Variant externE : Type -> Type :=
| fl_plugin_registry_get_registrar_for_plugin
    (registry : pointer FlPluginRegistry) (name : string)
  : externE (pointer FlPluginRegistrar)
| url_launcher_plugin_register_with_registrar
    (registrar : pointer FlPluginRegistrar)
  : externE unit
| glib_autoptr_cleanup_FlPluginRegistrar
    (registrar : pointer FlPluginRegistrar)
  : externE unit.

(** Accesses to objects of static storage duration, which any C function
    body may perform. *)
Variant globalE : Type -> Type :=
| GlobalRead (x : string) : globalE Z
| GlobalWrite (x : string) (v : Z) : globalE unit.

(** What a function body of this translation unit can do. *)
Definition cE : Type -> Type := globalE +' externE.

(** [void fl_register_plugins(FlPluginRegistry* registry)] *)
Definition fl_register_plugins (registry : pointer FlPluginRegistry)
  : itree cE unit :=
  url_launcher_linux_registrar <-
    trigger (fl_plugin_registry_get_registrar_for_plugin
               registry "UrlLauncherPlugin") ;;
  trigger (url_launcher_plugin_register_with_registrar
             url_launcher_linux_registrar) ;;
  trigger (glib_autoptr_cleanup_FlPluginRegistrar
             url_launcher_linux_registrar).

(** ** Performed calls *)

(** One performed call: the callee with its arguments, and what it
    returned. *)
Record call : Type := Call { ret : Type; callee : externE ret; answer : ret }.
Arguments Call {ret} callee answer.

(** A call of a plugin's registration routine. *)
Definition is_plugin_registration (c : call) : bool :=
  match callee c with
  | url_launcher_plugin_register_with_registrar _ => true
  | _ => false
  end.

(** A registrar lookup in the registry. *)
Definition is_registrar_lookup (c : call) : bool :=
  match callee c with
  | fl_plugin_registry_get_registrar_for_plugin _ _ => true
  | _ => false
  end.

(** The scope-exit cleanup of the local registrar variable. *)
Definition is_autoptr_cleanup (c : call) : bool :=
  match callee c with
  | glib_autoptr_cleanup_FlPluginRegistrar _ => true
  | _ => false
  end.

(** Calls that only obtain or give back the handle held by the local
    variable [url_launcher_linux_registrar]. *)
Definition manages_local_handle (c : call) : bool :=
  is_registrar_lookup c || is_autoptr_cleanup c.

(** The registrar a registration routine was called with. *)
Definition registration_argument (c : call)
  : option (pointer FlPluginRegistrar) :=
  match callee c with
  | url_launcher_plugin_register_with_registrar registrar => Some registrar
  | _ => None
  end.

(** The registry and plugin name a lookup was called with. *)
Definition lookup_arguments (c : call)
  : option (pointer FlPluginRegistry * string) :=
  match callee c with
  | fl_plugin_registry_get_registrar_for_plugin registry name =>
      Some (registry, name)
  | _ => None
  end.

(** The registrar a lookup returned. *)
Definition lookup_result (c : call) : option (pointer FlPluginRegistrar) :=
  match c with
  | Call e a =>
      match e in externE T return T -> option (pointer FlPluginRegistrar) with
      | fl_plugin_registry_get_registrar_for_plugin _ _ => fun a => Some a
      | _ => fun _ => None
      end a
  end.

(** The values [f] finds along a list of calls, in order. *)
Fixpoint collect {A B : Type} (f : A -> option B) (l : list A) : list B :=
  match l with
  | [] => []
  | x :: l' =>
      match f x with
      | Some y => y :: collect f l'
      | None => collect f l'
      end
  end.

(** Position of the first element that satisfies [p]. *)
Fixpoint first_index {A : Type} (p : A -> bool) (l : list A) : option nat :=
  match l with
  | [] => None
  | x :: l' =>
      if p x then Some 0
      else match first_index p l' with
           | Some i => Some (S i)
           | None => None
           end
  end.

(** ** Running a body against an environment *)

(** The state the callees live in and what each of them does there. *)
Record environment : Type := Environment {
  World : Type;
  get_registrar_for_plugin :
    pointer FlPluginRegistry -> string -> World ->
    World * pointer FlPluginRegistrar;
  register_with_registrar : pointer FlPluginRegistrar -> World -> World;
  autoptr_cleanup : pointer FlPluginRegistrar -> World -> World
}.

Record machine (env : environment) : Type := Machine {
  globals : string -> Z;
  world : World env;
  log : list call
}.
Arguments Machine {env} globals world log.
Arguments globals {env} m.
Arguments world {env} m.
Arguments log {env} m.

Definition perform (env : environment) {T} (c : externE T) (w : World env)
  : World env * T :=
  match c in externE T return World env * T with
  | fl_plugin_registry_get_registrar_for_plugin registry name =>
      get_registrar_for_plugin env registry name w
  | url_launcher_plugin_register_with_registrar registrar =>
      (register_with_registrar env registrar w, tt)
  | glib_autoptr_cleanup_FlPluginRegistrar registrar =>
      (autoptr_cleanup env registrar w, tt)
  end.

Definition handle_extern {env} {T} (c : externE T) (m : machine env)
  : machine env * T :=
  let (w, a) := perform env c (world m) in
  (Machine (globals m) w (log m ++ [Call c a]), a).

Definition handle_global {env} {T} (g : globalE T) (m : machine env)
  : machine env * T :=
  match g in globalE T return machine env * T with
  | GlobalRead x => (m, globals m x)
  | GlobalWrite x v =>
      (Machine (fun y => if String.eqb x y then v else globals m y)
               (world m) (log m), tt)
  end.

Definition handle (env : environment)
  : cE ~> Monads.stateT (machine env) (itree void1) :=
  fun T e m =>
    match e with
    | inl1 g => Ret (handle_global g m)
    | inr1 c => Ret (handle_extern c m)
    end.

Definition run {env} {R} (t : itree cE R) (m : machine env)
  : itree void1 (machine env * R) :=
  interp_state (handle env) t m.

(** Total correctness: from [m] the body returns, in a machine and with a
    value that satisfy [Q]. *)
Definition returns {env} {R} (t : itree cE R) (m : machine env)
           (Q : machine env -> R -> Prop) : Prop :=
  exists out, run t m ≈ Ret out /\ Q (fst out) (snd out).

(** The calls performed on the way from [m] to [m']. *)
Definition calls_since {env} (m m' : machine env) : list call :=
  skipn (length (log m)) (log m').

(** ** An environment for examples *)

Definition is_null {T : gtype} (p : pointer T) : bool := (addr p =? 0)%Z.

(** The registrars that plugins were registered with, in order, and the
    number of registrar references handed out and not yet given back. *)
Record ledger : Type := Ledger {
  registered : list (pointer FlPluginRegistrar);
  outstanding : Z
}.

(** An environment that keeps a [ledger].  The registry at address [a]
    hands out a reference to the registrar at address [a + 1], whatever
    the plugin name, and [NULL] for the [NULL] registry; the cleanup gives
    a reference back unless the variable holds [NULL]. *)
Definition recording_env : environment :=
  {| World := ledger;
     get_registrar_for_plugin :=
       fun registry _ w =>
         if is_null registry then (w, NULL)
         else (Ledger (registered w) (outstanding w + 1),
               Ptr (addr registry + 1));
     register_with_registrar :=
       fun registrar w =>
         Ledger (registered w ++ [registrar]) (outstanding w);
     autoptr_cleanup :=
       fun registrar w =>
         if is_null registrar then w
         else Ledger (registered w) (outstanding w - 1) |}.

(** Two machines of [recording_env] with different globals, worlds and
    histories. *)
Definition fresh_machine : machine recording_env :=
  @Machine recording_env (fun _ => 0%Z) (Ledger [] 0) [].

Definition used_machine : machine recording_env :=
  @Machine recording_env
    (fun x => if String.eqb x "counter" then 41%Z else 7%Z)
    (Ledger [Ptr 3] 2)
    [Call (url_launcher_plugin_register_with_registrar (Ptr 3)) tt].

(** ** Ownership of the registrar reference *)

(** The registrar the scope-exit cleanup was called on. *)
Definition cleanup_argument (c : call)
  : option (pointer FlPluginRegistrar) :=
  match callee c with
  | glib_autoptr_cleanup_FlPluginRegistrar registrar => Some registrar
  | _ => None
  end.

(** What one reference to the registrar behind [p] counts for: nothing
    when [p] is [NULL]. *)
Definition reference_to {T : gtype} (p : pointer T) : Z :=
  if is_null p then 0%Z else 1%Z.

(** The ownership rules the callees of [fl_register_plugins] are declared
    with, over a count [held] of the registrar references that callers
    hold: the lookup hands its caller one reference to the registrar it
    returns, the registration routine leaves the caller's references
    alone, and the [g_autoptr] cleanup gives one reference back; a [NULL]
    pointer carries no reference. *)
Definition follows_ownership_rules (env : environment)
           (held : World env -> Z) : Prop :=
  (forall registry name w,
      held (fst (get_registrar_for_plugin env registry name w)) =
      (held w +
       reference_to (snd (get_registrar_for_plugin env registry name w)))%Z)
  /\ (forall registrar w,
        held (register_with_registrar env registrar w) = held w)
  /\ (forall registrar w,
        held (autoptr_cleanup env registrar w) =
        (held w - reference_to registrar)%Z).

(** An environment like [recording_env] whose ledger counts a reference
    exactly when the registrar handed out is not [NULL]. *)
Definition counting_env : environment :=
  {| World := ledger;
     get_registrar_for_plugin :=
       fun registry _ w =>
         let registrar : pointer FlPluginRegistrar :=
           if is_null registry then NULL else Ptr (addr registry + 1) in
         (Ledger (registered w) (outstanding w + reference_to registrar),
          registrar);
     register_with_registrar :=
       fun registrar w =>
         Ledger (registered w ++ [registrar]) (outstanding w);
     autoptr_cleanup :=
       fun registrar w =>
         Ledger (registered w) (outstanding w - reference_to registrar) |}.

Definition counting_machine : machine counting_env :=
  @Machine counting_env (fun _ => 0%Z) (Ledger [Ptr 3] 2) [].

(** ** Bodies that leave global state alone *)

(** A body that performs no access to global state: on every path it only
    returns, steps silently, or calls one of the external functions and
    goes on, whatever the answer, with a body of the same kind. *)
Inductive global_free {R : Type} : itree cE R -> Prop :=
| global_free_ret (t : itree cE R) (r : R) :
    observe t = RetF r -> global_free t
| global_free_tau (t t' : itree cE R) :
    observe t = TauF t' -> global_free t' -> global_free t
| global_free_call (t : itree cE R) (T : Type) (c : externE T)
                   (k : T -> itree cE R) :
    observe t = VisF (inr1 c) k ->
    (forall x : T, global_free (k x)) ->
    global_free t.

(** An environment whose registry hands out the registrar at the address
    its world holds; registering and cleaning up leave the world alone. *)
Definition answering_env : environment :=
  {| World := Z;
     get_registrar_for_plugin := fun _ _ w => (w, Ptr w);
     register_with_registrar := fun _ w => w;
     autoptr_cleanup := fun _ w => w |}.

(** The machine of [answering_env] whose world holds [w], with all globals
    zero and no history. *)
Definition machine_at (w : Z) : machine answering_env :=
  @Machine answering_env (fun _ => 0%Z) w [].

End Registrant.

(* ===================================================================== *)
(** * SimplePlatformView.h                                                *)
(* ===================================================================== *)

Module ObjC.

Inductive nullability : Type :=
| nonnull
| nullable
| null_unspecified.

(** The pointer types the header spells. *)
Inductive type_spelling : Type :=
| instancetype
| object_pointer (class : string) (protocols : list string).

Record declared_type : Type := {
  spelling : type_spelling;
  annotation : option nullability
}.

Inductive method_kind : Type :=
| instance_method
| class_method.

Record method : Type := {
  kind : method_kind;
  result : declared_type;
  selector : string;
  parameters : list (declared_type * string)
}.

(** [@interface class_name : superclass <conforms_to> members @end] *)
Record interface : Type := {
  class_name : string;
  superclass : string;
  conforms_to : list string;
  members : list method
}.

Inductive item : Type :=
| import (header : string)
| NS_ASSUME_NONNULL_BEGIN
| NS_ASSUME_NONNULL_END
| interface_decl (i : interface).

(** The header, top to bottom: its directives and declarations. *)
Definition SimplePlatformView_h : list item :=
  [ import "Flutter/Flutter.h";
    NS_ASSUME_NONNULL_BEGIN;
    interface_decl
      {| class_name := "SimplePlatformView";
         superclass := "NSObject";
         conforms_to := ["FlutterPlatformView"];
         members := [] |};
    interface_decl
      {| class_name := "SimplePlatformViewFactory";
         superclass := "NSObject";
         conforms_to := ["FlutterPlatformViewFactory"];
         members :=
           [ {| kind := instance_method;
                result := {| spelling := instancetype; annotation := None |};
                selector := "initWithRegistrar:";
                parameters :=
                  [ ({| spelling :=
                          object_pointer "NSObject" ["FlutterPluginRegistrar"];
                        annotation := None |},
                     "registrar") ] |} ] |};
    NS_ASSUME_NONNULL_END ].

(** The interfaces a header declares, each with whether it stands between
    [NS_ASSUME_NONNULL_BEGIN] and [NS_ASSUME_NONNULL_END]. *)
Fixpoint declared_from (audited : bool) (h : list item)
  : list (bool * interface) :=
  match h with
  | [] => []
  | import _ :: h' => declared_from audited h'
  | NS_ASSUME_NONNULL_BEGIN :: h' => declared_from true h'
  | NS_ASSUME_NONNULL_END :: h' => declared_from false h'
  | interface_decl i :: h' => (audited, i) :: declared_from audited h'
  end.

Definition declared (h : list item) : list (bool * interface) :=
  declared_from false h.

Definition interfaces (h : list item) : list interface :=
  List.map snd (declared h).

(** Modelled from the spec: the Foundation macros [NS_ASSUME_NONNULL_BEGIN]
    and [NS_ASSUME_NONNULL_END] are not defined in this header.  Between
    them a pointer type written without a nullability annotation is
    non-nullable; outside, it has no specified nullability.  An annotation
    that is written always wins. *)
Definition effective_nullability (audited : bool) (t : declared_type)
  : nullability :=
  match annotation t with
  | Some n => n
  | None => if audited then nonnull else null_unspecified
  end.

(** Whether [nil] is an admissible value at a pointer of this nullability. *)
Definition admits_nil (n : nullability) : bool :=
  match n with
  | nonnull => false
  | nullable | null_unspecified => true
  end.

(** The method [sel] of class [cls], with whether it is declared in an
    assume-nonnull region. *)
Definition find_method (h : list item) (cls sel : string)
  : option (bool * method) :=
  match List.find (fun d => String.eqb (class_name (snd d)) cls) (declared h) with
  | Some (audited, i) =>
      match List.find (fun m => String.eqb (selector m) sel) (members i) with
      | Some m => Some (audited, m)
      | None => None
      end
  | None => None
  end.

End ObjC.

(* ===================================================================== *)
(** * Properties of [fl_register_plugins]                                 *)
(* ===================================================================== *)

Section RegistrantProperties.

Import Registrant.

Variable env : environment.

(** ** Running, one call at a time *)

Lemma returns_weaken {R} (t : itree cE R) (m : machine env)
      (Q Q' : machine env -> R -> Prop) :
  (forall m' r, Q m' r -> Q' m' r) -> returns t m Q -> returns t m Q'.
Proof.
  intros HQ (out & Hrun & H). exists out. split; [exact Hrun | auto].
Qed.

(** A body has one outcome: what [returns] says of one run holds of
    every run. *)
Lemma returns_every_run {R} (t : itree cE R) (m : machine env)
      (Q : machine env -> R -> Prop) :
  returns t m Q ->
  forall out, run t m ≈ Ret out -> Q (fst out) (snd out).
Proof.
  intros (out' & Hrun & H) out Hout.
  rewrite Hrun in Hout. apply eutt_inv_Ret in Hout. subst out'. exact H.
Qed.

(** One call, then the rest of the body. *)
Lemma run_call_then {T R} (c : externE T) (k : T -> itree cE R)
      (m : machine env) :
  run (x <- trigger c ;; k x) m
  ≈ run (k (snd (handle_extern c m))) (fst (handle_extern c m)).
Proof.
  unfold run, trigger.
  rewrite interp_state_bind, interp_state_vis. cbn.
  rewrite bind_ret_l. cbn.
  rewrite tau_eutt, interp_state_ret, bind_ret_l. cbn.
  reflexivity.
Qed.

(** One call in tail position. *)
Lemma run_call {T} (c : externE T) (m : machine env) :
  run (trigger c) m ≈ Ret (handle_extern c m).
Proof.
  unfold run, trigger.
  rewrite interp_state_vis. cbn.
  rewrite bind_ret_l. cbn.
  rewrite tau_eutt, interp_state_ret.
  change (resum IFun T c) with c.
  destruct (handle_extern c m). reflexivity.
Qed.

Lemma skipn_length_app {A} (l cs : list A) : skipn (length l) (l ++ cs) = cs.
Proof. induction l as [|x l IH]; cbn; auto. Qed.

Lemma calls_since_log (m m' : machine env) (cs : list call) :
  log m' = log m ++ cs -> calls_since m m' = cs.
Proof. unfold calls_since. intros ->. apply skipn_length_app. Qed.

(** ** The whole run, call by call *)

Lemma fl_register_plugins_run registry (m : machine env) :
  returns (fl_register_plugins registry) m
    (fun m' r =>
       let got :=
         get_registrar_for_plugin env registry "UrlLauncherPlugin" (world m) in
       let registrar := snd got in
       r = tt /\
       globals m' = globals m /\
       world m' =
         autoptr_cleanup env registrar
           (register_with_registrar env registrar (fst got)) /\
       calls_since m m' =
         [ Call (fl_plugin_registry_get_registrar_for_plugin
                   registry "UrlLauncherPlugin") registrar;
           Call (url_launcher_plugin_register_with_registrar registrar) tt;
           Call (glib_autoptr_cleanup_FlPluginRegistrar registrar) tt ]).
Proof.
  unfold returns, fl_register_plugins.
  eexists. split.
  - rewrite run_call_then, run_call_then, run_call. reflexivity.
  - unfold handle_extern. cbn.
    destruct (get_registrar_for_plugin env registry "UrlLauncherPlugin"
                (world m)) as [w1 registrar]. cbn.
    repeat split. apply calls_since_log. cbn.
    rewrite <- !app_assoc. reflexivity.
Qed.

(** ** What the function does *)

(** Every property below is read off the run: reduce the goal to the
    postcondition of [fl_register_plugins_run]. *)
Ltac from_run :=
  eapply returns_weaken; [| apply fl_register_plugins_run]; cbn.

(** C1: for every registry handle, [fl_register_plugins] invokes exactly
    one plugin registration routine,
    [url_launcher_plugin_register_with_registrar], and invokes it exactly
    once: the registration calls among the calls it performs are that
    single call. *)
Theorem fl_register_plugins_registers_once registry (m : machine env) :
  returns (fl_register_plugins registry) m
    (fun m' _ =>
       exists registrar,
         filter is_plugin_registration (calls_since m m') =
           [ Call (url_launcher_plugin_register_with_registrar registrar) tt ]
         /\ length (filter is_plugin_registration (calls_since m m')) = 1).
Proof.
  from_run. intros m' r (_ & _ & _ & ->).
  eexists. split; reflexivity.
Qed.

(** C2: the argument passed to
    [url_launcher_plugin_register_with_registrar] is exactly the registrar
    that [fl_plugin_registry_get_registrar_for_plugin] returned for the
    registry handle: the one lookup is made on [registry], the environment
    answers it with some registrar, and the one registration call receives
    that same registrar. *)
Theorem fl_register_plugins_forwards_registrar registry (m : machine env) :
  returns (fl_register_plugins registry) m
    (fun m' _ =>
       let registrar :=
         snd (get_registrar_for_plugin env registry "UrlLauncherPlugin"
                (world m)) in
       List.map fst (collect lookup_arguments (calls_since m m')) = [registry]
       /\ collect lookup_result (calls_since m m') = [registrar]
       /\ collect registration_argument (calls_since m m') = [registrar]).
Proof.
  from_run. intros m' r (_ & _ & _ & ->).
  repeat split.
Qed.

(** C3: [fl_register_plugins] has no error branch: for every registry
    handle, every environment and every starting machine it returns
    normally, with the unit value, having performed both the registrar
    lookup and the registration call. *)
Theorem fl_register_plugins_no_error_branch registry (m : machine env) :
  returns (fl_register_plugins registry) m
    (fun m' r =>
       r = tt
       /\ existsb is_registrar_lookup (calls_since m m') = true
       /\ existsb is_plugin_registration (calls_since m m') = true).
Proof.
  from_run. intros m' r (-> & _ & _ & ->).
  repeat split.
Qed.

(** A body that is [global_free] does not start with an access to a
    global. *)
Lemma global_free_no_access {R T} (t : itree cE R)
      (g : globalE T) (k : T -> itree cE R) :
  global_free t -> observe t <> VisF (inl1 g) k.
Proof.
  intros H Hobs.
  inversion H as [t0 r Hret | t0 t' Htau _ | t0 T' c k' Hcall _];
    rewrite Hobs in *.
  - discriminate Hret.
  - discriminate Htau.
  - inversion Hcall.
Qed.

(** The body of [fl_register_plugins] is three external calls in a row. *)
Lemma fl_register_plugins_global_free registry :
  global_free (fl_register_plugins registry).
Proof.
  unfold fl_register_plugins.
  eapply global_free_call; [cbn; reflexivity |]. intros registrar.
  eapply global_free_call; [cbn; reflexivity |]. intros [].
  eapply global_free_call; [cbn; reflexivity |]. intros [].
  eapply global_free_ret. cbn. reflexivity.
Qed.

(** C5, as amended: [fl_register_plugins] reads and writes no global
    state: its body performs no access to a global, and any two runs on
    equal registry handles in which the lookup returns the same registrar
    perform the identical sequence of calls with identical arguments,
    from arbitrary globals, worlds and histories, each leaving its globals
    as they were. *)
Theorem fl_register_plugins_ignores_globals
        (registry1 registry2 : pointer FlPluginRegistry)
        (m1 m2 : machine env) :
  registry1 = registry2 ->
  snd (get_registrar_for_plugin env registry1 "UrlLauncherPlugin" (world m1)) =
  snd (get_registrar_for_plugin env registry2 "UrlLauncherPlugin" (world m2)) ->
  global_free (fl_register_plugins registry1)
  /\ global_free (fl_register_plugins registry2)
  /\ returns (fl_register_plugins registry1) m1
       (fun m1' _ =>
          returns (fl_register_plugins registry2) m2
            (fun m2' _ =>
               calls_since m1 m1' = calls_since m2 m2'
               /\ globals m1' = globals m1
               /\ globals m2' = globals m2)).
Proof.
  intros <- Hanswer.
  split; [apply fl_register_plugins_global_free |].
  split; [apply fl_register_plugins_global_free |].
  from_run. intros m1' r1 (_ & Hg1 & _ & Hc1).
  from_run. intros m2' r2 (_ & Hg2 & _ & Hc2).
  rewrite Hc1, Hc2, Hanswer. auto.
Qed.

(** C6: [fl_register_plugins] takes one parameter, a [FlPluginRegistry*],
    and returns nothing; registering the plugin is its only effect: it
    writes no global, and the one call it performs besides obtaining and
    giving back the handle in its local variable is the registration. *)
Theorem fl_register_plugins_only_registers
        (registry : pointer FlPluginRegistry) (m : machine env) :
  returns (fl_register_plugins registry : itree cE unit) m
    (fun m' (r : unit) =>
       let got :=
         get_registrar_for_plugin env registry "UrlLauncherPlugin" (world m) in
       r = tt
       /\ globals m' = globals m
       /\ filter (fun c => negb (manages_local_handle c)) (calls_since m m') =
            [ Call (url_launcher_plugin_register_with_registrar (snd got)) tt ]
       /\ world m' =
            autoptr_cleanup env (snd got)
              (register_with_registrar env (snd got) (fst got))).
Proof.
  from_run. intros m' r (-> & Hg & Hw & ->).
  repeat split; assumption.
Qed.

(** C7: the plugin name under which the registrar is looked up is exactly
    the string [UrlLauncherPlugin]: the function makes one lookup, on its
    registry argument, with that literal as second argument. *)
Theorem fl_register_plugins_lookup_name registry (m : machine env) :
  returns (fl_register_plugins registry) m
    (fun m' _ =>
       collect lookup_arguments (calls_since m m') =
         [ (registry, "UrlLauncherPlugin") ]).
Proof.
  from_run. intros m' r (_ & _ & _ & ->).
  reflexivity.
Qed.

(** C8: the registrar lookup happens strictly before the registration
    call: the first lookup stands at an earlier position among the
    performed calls than the first registration, so no registration
    precedes it, and the registrar that lookup returned is the one the
    registration receives. *)
Theorem fl_register_plugins_lookup_first registry (m : machine env) :
  returns (fl_register_plugins registry) m
    (fun m' _ =>
       exists i j lookup registration registrar,
         first_index is_registrar_lookup (calls_since m m') = Some i
         /\ first_index is_plugin_registration (calls_since m m') = Some j
         /\ i < j
         /\ nth_error (calls_since m m') i = Some lookup
         /\ nth_error (calls_since m m') j = Some registration
         /\ lookup_result lookup = Some registrar
         /\ registration_argument registration = Some registrar).
Proof.
  from_run. intros m' r (_ & _ & _ & ->).
  exists 0, 1. do 3 eexists. cbn.
  repeat split. lia.
Qed.

End RegistrantProperties.

(** Two runs from [fresh_machine] and [used_machine] on the registry at
    address 16: both lookups answer the registrar at address 17. *)
Lemma fl_register_plugins_ignores_globals_witness :
  snd (Registrant.get_registrar_for_plugin Registrant.recording_env
         (Registrant.Ptr 16) "UrlLauncherPlugin"
         (Registrant.world Registrant.fresh_machine)) =
  snd (Registrant.get_registrar_for_plugin Registrant.recording_env
         (Registrant.Ptr 16) "UrlLauncherPlugin"
         (Registrant.world Registrant.used_machine))
  /\ Registrant.global_free
       (Registrant.fl_register_plugins (Registrant.Ptr 16))
  /\ Registrant.global_free
       (Registrant.fl_register_plugins (Registrant.Ptr 16))
  /\ Registrant.returns
       (Registrant.fl_register_plugins (Registrant.Ptr 16))
       Registrant.fresh_machine
       (fun m1' _ =>
          Registrant.returns
            (Registrant.fl_register_plugins (Registrant.Ptr 16))
            Registrant.used_machine
            (fun m2' _ =>
               Registrant.calls_since Registrant.fresh_machine m1' =
               Registrant.calls_since Registrant.used_machine m2'
               /\ Registrant.globals m1' =
                    Registrant.globals Registrant.fresh_machine
               /\ Registrant.globals m2' =
                    Registrant.globals Registrant.used_machine)).
Proof.
  split.
  - reflexivity.
  - apply (fl_register_plugins_ignores_globals
             Registrant.recording_env
             (Registrant.Ptr 16) (Registrant.Ptr 16)
             Registrant.fresh_machine Registrant.used_machine);
      reflexivity.
Defined.

(** C5, as worded, fails: in [answering_env] two runs on the same registry,
    at address 16, from worlds that hold 17 and 18, do not perform the
    same calls.  The lookup answers the registrar at 17 in the first run
    and the one at 18 in the second, and each run passes on what its own
    lookup answered. *)
Lemma fl_register_plugins_calls_follow_lookup :
  ~ Registrant.returns
      (Registrant.fl_register_plugins (Registrant.Ptr 16))
      (Registrant.machine_at 17)
      (fun m1' _ =>
         Registrant.returns
           (Registrant.fl_register_plugins (Registrant.Ptr 16))
           (Registrant.machine_at 18)
           (fun m2' _ =>
              Registrant.calls_since (Registrant.machine_at 17) m1' =
              Registrant.calls_since (Registrant.machine_at 18) m2')).
Proof.
  intros Hsame.
  destruct (fl_register_plugins_run Registrant.answering_env
              (Registrant.Ptr 16) (Registrant.machine_at 17))
    as (out1 & Hrun1 & _ & _ & _ & Hcalls1).
  destruct (fl_register_plugins_run Registrant.answering_env
              (Registrant.Ptr 16) (Registrant.machine_at 18))
    as (out2 & Hrun2 & _ & _ & _ & Hcalls2).
  pose proof (returns_every_run _ _ _ _ Hsame out1 Hrun1) as Hsame1.
  pose proof (returns_every_run _ _ _ _ Hsame1 out2 Hrun2) as Heq.
  cbn in Hcalls1, Hcalls2, Heq.
  rewrite Hcalls1, Hcalls2 in Heq.
  apply (f_equal (Registrant.collect Registrant.registration_argument)) in Heq.
  cbn in Heq. discriminate Heq.
Qed.

(** In [recording_env] the registry at address 16 hands out the registrar at
    address 17; the run leaves exactly that registrar registered and no
    reference outstanding. *)
Example fl_register_plugins_recorded :
  Registrant.returns
    (Registrant.fl_register_plugins (Registrant.Ptr 16))
    Registrant.fresh_machine
    (fun m' _ =>
       Registrant.world m' = Registrant.Ledger [Registrant.Ptr 17] 0
       /\ Registrant.log m' =
            [ Registrant.Call
                (Registrant.fl_plugin_registry_get_registrar_for_plugin
                   (Registrant.Ptr 16) "UrlLauncherPlugin")
                (Registrant.Ptr 17);
              Registrant.Call
                (Registrant.url_launcher_plugin_register_with_registrar
                   (Registrant.Ptr 17)) tt;
              Registrant.Call
                (Registrant.glib_autoptr_cleanup_FlPluginRegistrar
                   (Registrant.Ptr 17)) tt ]).
Proof.
  eapply returns_weaken; [| apply fl_register_plugins_run].
  cbn. intros m' r (_ & _ & Hw & Hc). split; [exact Hw | exact Hc].
Qed.

(** From [used_machine] the earlier registration and the two references
    already outstanding are kept. *)
Example fl_register_plugins_recorded_again :
  Registrant.returns
    (Registrant.fl_register_plugins (Registrant.Ptr 16))
    Registrant.used_machine
    (fun m' _ =>
       Registrant.world m' =
         Registrant.Ledger [Registrant.Ptr 3; Registrant.Ptr 17] 2).
Proof.
  eapply returns_weaken; [| apply fl_register_plugins_run].
  cbn. intros m' r (_ & _ & Hw & _). exact Hw.
Qed.

(** A [NULL] registry is looked up, and the [NULL] registrar it yields is
    registered, like any other: nothing in the body tests a pointer. *)
Example fl_register_plugins_null_registry :
  Registrant.returns
    (Registrant.fl_register_plugins Registrant.NULL)
    Registrant.fresh_machine
    (fun m' _ =>
       Registrant.world m' = Registrant.Ledger [Registrant.NULL] 0
       /\ Registrant.collect Registrant.registration_argument
            (Registrant.log m') = [Registrant.NULL]).
Proof.
  eapply returns_weaken; [| apply fl_register_plugins_run].
  cbn. intros m' r (_ & _ & Hw & Hc). rewrite Hw, Hc. split; reflexivity.
Qed.

(* ===================================================================== *)
(** * Properties of [SimplePlatformView.h]                                *)
(* ===================================================================== *)

Section HeaderProperties.

Import ObjC.

Lemma declared_SimplePlatformView_h :
  List.map fst (declared SimplePlatformView_h) = [true; true].
Proof. reflexivity. Qed.

(** C4: the header declares exactly two class interfaces,
    [SimplePlatformView] conforming to [FlutterPlatformView] and
    [SimplePlatformViewFactory] conforming to
    [FlutterPlatformViewFactory]; the first declares no member and the
    second only the initializer [initWithRegistrar:]. *)
Theorem SimplePlatformView_h_declares_two_interfaces :
  length (interfaces SimplePlatformView_h) = 2
  /\ List.map (fun i => (class_name i, conforms_to i))
              (interfaces SimplePlatformView_h) =
       [ ("SimplePlatformView", ["FlutterPlatformView"]);
         ("SimplePlatformViewFactory", ["FlutterPlatformViewFactory"]) ]
  /\ List.map (fun i => List.map selector (members i))
              (interfaces SimplePlatformView_h) =
       [ []; ["initWithRegistrar:"] ]
  /\ List.map selector (flat_map members (interfaces SimplePlatformView_h)) =
       [ "initWithRegistrar:" ].
Proof. repeat split. Qed.

(** C9: [initWithRegistrar:] of [SimplePlatformViewFactory] is declared
    inside the assume-nonnull region with no nullability annotation on
    its parameter or result, so both are non-nullable: [nil] is not an
    admissible argument and not a possible result.  Outside such a
    region the same declaration would leave both unspecified. *)
Theorem initWithRegistrar_nonnull :
  exists audited init,
    find_method SimplePlatformView_h
                "SimplePlatformViewFactory" "initWithRegistrar:" =
      Some (audited, init)
    /\ audited = true
    /\ List.map (fun p => (snd p, annotation (fst p))) (parameters init) =
         [ ("registrar", None) ]
    /\ annotation (result init) = None
    /\ List.map (fun p => effective_nullability audited (fst p))
                (parameters init) = [ nonnull ]
    /\ effective_nullability audited (result init) = nonnull
    /\ forallb (fun p => negb (admits_nil
                                 (effective_nullability audited (fst p))))
               (parameters init) = true
    /\ admits_nil (effective_nullability audited (result init)) = false
    /\ effective_nullability false (result init) = null_unspecified
    /\ List.map (fun p => effective_nullability false (fst p))
                (parameters init) = [ null_unspecified ].
Proof. do 2 eexists. repeat split. Qed.

End HeaderProperties.

(* ===================================================================== *)
(** * The registrar reference, and repeated registration                  *)
(* ===================================================================== *)

Section RegistrantLifecycle.

Import Registrant.

Variable env : environment.

(** Sequencing: the second body runs from where the first one returned. *)
Lemma returns_bind {R S} (t : itree cE R) (k : R -> itree cE S)
      (m : machine env) (Q : machine env -> S -> Prop) :
  returns t m (fun m1 x => returns (k x) m1 Q) ->
  returns (x <- t ;; k x) m Q.
Proof.
  intros (out1 & Hrun1 & out2 & Hrun2 & HQ).
  exists out2. split; [| exact HQ].
  unfold run in *. rewrite interp_state_bind, Hrun1, bind_ret_l.
  exact Hrun2.
Qed.

(** The run of [fl_register_plugins] only appends to the history. *)
Lemma fl_register_plugins_appends registry (m : machine env) :
  returns (fl_register_plugins registry) m
    (fun m' _ =>
       let got :=
         get_registrar_for_plugin env registry "UrlLauncherPlugin" (world m) in
       world m' =
         autoptr_cleanup env (snd got)
           (register_with_registrar env (snd got) (fst got))
       /\ log m' =
            log m ++
            [ Call (fl_plugin_registry_get_registrar_for_plugin
                      registry "UrlLauncherPlugin") (snd got);
              Call (url_launcher_plugin_register_with_registrar (snd got)) tt;
              Call (glib_autoptr_cleanup_FlPluginRegistrar (snd got)) tt ]).
Proof.
  unfold returns, fl_register_plugins.
  eexists. split.
  - rewrite run_call_then, run_call_then, run_call. reflexivity.
  - unfold handle_extern. cbn.
    destruct (get_registrar_for_plugin env registry "UrlLauncherPlugin"
                (world m)) as [w1 registrar]. cbn.
    split; [reflexivity |]. rewrite <- !app_assoc. reflexivity.
Qed.

Lemma is_null_NULL {T : gtype} (p : pointer T) : is_null p = true -> p = NULL.
Proof.
  destruct p as [a]. unfold is_null, NULL. cbn.
  intros H. apply Z.eqb_eq in H. now subst a.
Qed.

(** X1: the scope-exit cleanup runs exactly once, on the registrar the
    lookup returned, and it is the last call of the body: the registration
    call stands before it, so the registrar is never handed to the
    registration routine after it was given back. *)
Theorem fl_register_plugins_releases_last registry (m : machine env) :
  returns (fl_register_plugins registry) m
    (fun m' _ =>
       let registrar :=
         snd (get_registrar_for_plugin env registry "UrlLauncherPlugin"
                (world m)) in
       collect cleanup_argument (calls_since m m') = [registrar]
       /\ exists j k,
           first_index is_plugin_registration (calls_since m m') = Some j
           /\ first_index is_autoptr_cleanup (calls_since m m') = Some k
           /\ j < k
           /\ S k = length (calls_since m m')
           /\ existsb is_plugin_registration
                (skipn k (calls_since m m')) = false).
Proof.
  eapply returns_weaken; [| apply fl_register_plugins_run].
  cbn. intros m' r (_ & _ & _ & ->).
  split; [reflexivity |].
  exists 1, 2. cbn. repeat split. lia.
Qed.

(** X2: when the callees follow the ownership rules, a run of
    [fl_register_plugins] leaves the number of registrar references held by
    callers as it found it, whether or not the lookup returned [NULL]: the
    reference the lookup hands out is the one the cleanup gives back. *)
Theorem fl_register_plugins_keeps_no_reference
        (held : World env -> Z) registry (m : machine env) :
  follows_ownership_rules env held ->
  returns (fl_register_plugins registry) m
    (fun m' _ => held (world m') = held (world m)).
Proof.
  intros (Hlookup & Hregister & Hcleanup).
  eapply returns_weaken; [| apply fl_register_plugins_run].
  cbn. intros m' r (_ & _ & -> & _).
  rewrite Hcleanup, Hregister, Hlookup. lia.
Qed.

(** X3: [fl_register_plugins] does not remember earlier runs.  Two runs in
    a row, on any two registries (the same one included), make two lookups
    and two registrations, in that order; the second lookup is answered in
    the world the first run left. *)
Theorem fl_register_plugins_twice registry1 registry2 (m : machine env) :
  returns (fl_register_plugins registry1 ;; fl_register_plugins registry2) m
    (fun m' _ =>
       let got1 :=
         get_registrar_for_plugin env registry1 "UrlLauncherPlugin"
           (world m) in
       let w1 :=
         autoptr_cleanup env (snd got1)
           (register_with_registrar env (snd got1) (fst got1)) in
       let got2 :=
         get_registrar_for_plugin env registry2 "UrlLauncherPlugin" w1 in
       collect lookup_arguments (calls_since m m') =
         [ (registry1, "UrlLauncherPlugin"); (registry2, "UrlLauncherPlugin") ]
       /\ collect registration_argument (calls_since m m') =
            [ snd got1; snd got2 ]
       /\ length (filter is_plugin_registration (calls_since m m')) = 2
       /\ world m' =
            autoptr_cleanup env (snd got2)
              (register_with_registrar env (snd got2) (fst got2))).
Proof.
  apply returns_bind.
  eapply returns_weaken; [| apply fl_register_plugins_appends].
  cbn. intros m1 _ (Hw1 & Hlog1).
  eapply returns_weaken; [| apply fl_register_plugins_appends].
  cbn. intros m2 _ (Hw2 & Hlog2).
  rewrite Hw1 in Hw2. rewrite Hlog1, Hw1, <- app_assoc in Hlog2.
  rewrite (calls_since_log env m m2 _ Hlog2). cbn.
  repeat split. exact Hw2.
Qed.

(** X4: when the lookup returns [NULL], nothing is skipped: the body still
    makes its three calls, and both the registration routine and the
    cleanup are called with [NULL]. *)
Theorem fl_register_plugins_forwards_null registry (m : machine env) :
  is_null (snd (get_registrar_for_plugin env registry "UrlLauncherPlugin"
                  (world m))) = true ->
  returns (fl_register_plugins registry) m
    (fun m' _ =>
       collect registration_argument (calls_since m m') = [NULL]
       /\ collect cleanup_argument (calls_since m m') = [NULL]
       /\ length (calls_since m m') = 3).
Proof.
  intros Hnull. apply is_null_NULL in Hnull.
  eapply returns_weaken; [| apply fl_register_plugins_run].
  cbn. intros m' r (_ & _ & _ & ->).
  cbn. rewrite Hnull. repeat split.
Qed.

End RegistrantLifecycle.

(** [counting_env] follows the ownership rules, with the references its
    ledger counts as outstanding; a run from [counting_machine] keeps the
    two it starts with. *)
Lemma fl_register_plugins_keeps_no_reference_witness :
  Registrant.follows_ownership_rules
    Registrant.counting_env Registrant.outstanding
  /\ Registrant.returns
       (Registrant.fl_register_plugins (Registrant.Ptr 16))
       Registrant.counting_machine
       (fun m' _ =>
          Registrant.outstanding (Registrant.world m') =
          Registrant.outstanding
            (Registrant.world Registrant.counting_machine)).
Proof.
  assert (H : Registrant.follows_ownership_rules
                Registrant.counting_env Registrant.outstanding).
  { unfold Registrant.follows_ownership_rules. cbn.
    repeat split; intros; reflexivity. }
  split; [exact H |].
  exact (fl_register_plugins_keeps_no_reference
           Registrant.counting_env Registrant.outstanding
           (Registrant.Ptr 16) Registrant.counting_machine H).
Defined.

(** In [recording_env] the [NULL] registry yields the [NULL] registrar. *)
Lemma fl_register_plugins_forwards_null_witness :
  Registrant.is_null
    (snd (Registrant.get_registrar_for_plugin Registrant.recording_env
            Registrant.NULL "UrlLauncherPlugin"
            (Registrant.world Registrant.fresh_machine))) = true
  /\ Registrant.returns
       (Registrant.fl_register_plugins Registrant.NULL)
       Registrant.fresh_machine
       (fun m' _ =>
          Registrant.collect Registrant.registration_argument
            (Registrant.calls_since Registrant.fresh_machine m') =
            [Registrant.NULL]
          /\ Registrant.collect Registrant.cleanup_argument
               (Registrant.calls_since Registrant.fresh_machine m') =
               [Registrant.NULL]
          /\ length (Registrant.calls_since Registrant.fresh_machine m') = 3).
Proof.
  split.
  - reflexivity.
  - apply (fl_register_plugins_forwards_null
             Registrant.recording_env Registrant.NULL
             Registrant.fresh_machine).
    reflexivity.
Defined.
